(** * SafeStride: behavioural anomaly scoring, baseline adaptation and
    session/flag bookkeeping.

    Shallow embedding of
      - backend/src/services/behaviorAnalysis.ts  (scalar-baseline scorer)
      - backend/src/services/mlService.ts         (rolling-history z-score scorer)
      - backend/src/services/userService.ts       (sessions, flag log, profiles)
      - backend/src/routes/behavior.ts            (POST /analyze handler)

    JavaScript numbers are modelled as real numbers [R] (rounding is not
    modelled) where the code's behaviour does not depend on rounding; the
    baseline update and the z-score service, whose results do, are embedded a
    second time over IEEE binary64 numbers (Rocq's primitive floats) in
    [JSNumber], [BehaviorAnalysisF] and [MLServiceF].  A [Date] is its
    millisecond timestamp, a [Z], and every [new Date()] / [Date.now()] of the
    source is the [now] argument of the operation that performs it.  Formatted strings built with
    [toFixed(1)] are kept as structured data (label and value). *)

From stdpp Require Import base gmap strings list pretty.
From Stdlib Require Import Reals Lra.
From Stdlib Require Floats Uint63.

#[local] Set Warnings "-inexact-float".

(** ** types/index.ts *)
Module Types.

Record BehaviorMetrics := mkMetrics {
  avgTypingInterval : R;
  mouseMovementCount : R;
  scrollEventCount : R;
  sessionDuration : R
}.

Record BehaviorProfile := mkProfile {
  userId : string;
  baselineTypingInterval : R;
  baselineMouseActivity : R;
  baselineScrollPattern : R;
  anomalyThreshold : R;
  lastUpdated : Z
}.

Inductive Recommendation := Pass | Reauthenticate | Lock.

(** A factor string [`${label}: ${pct.toFixed(1)}%`], kept as its two parts. *)
Record Factor := mkFactor {
  factor_label : string;
  factor_pct : R
}.

Record AnomalyAnalysis := mkAnalysis {
  score : R;
  confidence : R;
  factors : list Factor;
  recommendation : Recommendation
}.

Record Session := mkSession {
  s_id : string;
  s_userId : string;
  startTime : Z;
  lastActivity : Z;
  isActive : bool;
  anomalyScore : R
}.

Inductive FlagType := FTyping | FMouse | FScroll | FSession.
Inductive Severity := Low | Medium | High.

(** The description [`Real-time anomaly: ${score.toFixed(1)} - ${factors.join(', ')}`],
    kept as the score and the factor list it is built from. *)
Record FlagDescription := RealTimeAnomaly {
  d_score : R;
  d_factors : list Factor
}.

Record FlagLog := mkFlagLog {
  f_id : string;
  f_sessionId : string;
  timestamp : Z;
  f_type : FlagType;
  severity : Severity;
  description : FlagDescription;
  action : string;
  resolved : bool
}.

Record User := mkUser {
  u_id : string;
  username : string;
  email : string;
  behaviorProfile : BehaviorProfile;
  createdAt : Z;
  lastLogin : Z
}.

End Types.
Import Types.

Local Open Scope R_scope.

(** ** services/behaviorAnalysis.ts (scalar-baseline variant) *)
Module BehaviorAnalysis.

Definition analyzeTypingBehavior (currentInterval baselineInterval : R) : R :=
  if Req_dec_T baselineInterval 0 then 0
  else
    let deviation := Rabs (currentInterval - baselineInterval) / baselineInterval in
    Rmin 100 (deviation * 100).

Definition analyzeMouseBehavior (currentActivity baselineActivity : R) : R :=
  if Req_dec_T baselineActivity 0 then 0
  else
    let deviation := Rabs (currentActivity - baselineActivity) / baselineActivity in
    Rmin 100 (deviation * 100).

Definition analyzeScrollBehavior (currentScrolls baselineScrolls : R) : R :=
  if Req_dec_T baselineScrolls 0 then 0
  else
    let deviation := Rabs (currentScrolls - baselineScrolls) / baselineScrolls in
    Rmin 100 (deviation * 100).

Definition analyzeSessionBehavior (sessionDuration : R) : R :=
  let suspiciousThreshold := 5000 in
  if Rlt_dec sessionDuration suspiciousThreshold then 30 else 0.

(** One [if (xDeviation.score > 0) { factors.push(...); totalScore += ... }]
    block: the pair is the (factors, totalScore) state of [analyzeBehavior]. *)
Definition pushIfPositive (st : list Factor * R) (label : string) (s w : R)
  : list Factor * R :=
  if Rlt_dec 0 s then (st.1 ++ [mkFactor label s], st.2 + s * w) else st.

Definition analyzeBehavior (currentMetrics : BehaviorMetrics)
    (userProfile : BehaviorProfile) : AnomalyAnalysis :=
  let st0 : list Factor * R := ([], 0) in
  let confidence0 := 0.8 in
  let typingDeviation := analyzeTypingBehavior
      (avgTypingInterval currentMetrics) (baselineTypingInterval userProfile) in
  let st1 := pushIfPositive st0 "Typing speed deviation" typingDeviation 0.4 in
  let mouseDeviation := analyzeMouseBehavior
      (mouseMovementCount currentMetrics) (baselineMouseActivity userProfile) in
  let st2 := pushIfPositive st1 "Mouse activity deviation" mouseDeviation 0.3 in
  let scrollDeviation := analyzeScrollBehavior
      (scrollEventCount currentMetrics) (baselineScrollPattern userProfile) in
  let st3 := pushIfPositive st2 "Scroll pattern deviation" scrollDeviation 0.2 in
  let sessionDeviation := analyzeSessionBehavior (sessionDuration currentMetrics) in
  let st4 := pushIfPositive st3 "Session duration anomaly" sessionDeviation 0.1 in
  let normalizedScore := Rmin 100 (Rmax 0 st4.2) in
  let recommendation :=
    if Rlt_dec normalizedScore 30 then Pass
    else if Rlt_dec normalizedScore 70 then Reauthenticate
    else Lock in
  let confidence1 :=
    if Req_dec_T (avgTypingInterval currentMetrics) 0 then confidence0 * 0.7
    else confidence0 in
  let confidence2 :=
    if Req_dec_T (mouseMovementCount currentMetrics) 0 then confidence1 * 0.8
    else confidence1 in
  mkAnalysis normalizedScore (Rmax 0.5 confidence2) st4.1 recommendation.

Definition updateBaseline (currentBaseline newValue learningRate : R) : R :=
  currentBaseline * (1 - learningRate) + newValue * learningRate.

(** [{ ...currentProfile, baseline... : updateBaseline(...), lastUpdated: new Date() }] *)
Definition updateProfile (currentProfile : BehaviorProfile)
    (newMetrics : BehaviorMetrics) (learningRate : R) (now : Z) : BehaviorProfile :=
  {| userId := userId currentProfile;
     baselineTypingInterval := updateBaseline (baselineTypingInterval currentProfile)
        (avgTypingInterval newMetrics) learningRate;
     baselineMouseActivity := updateBaseline (baselineMouseActivity currentProfile)
        (mouseMovementCount newMetrics) learningRate;
     baselineScrollPattern := updateBaseline (baselineScrollPattern currentProfile)
        (scrollEventCount newMetrics) learningRate;
     anomalyThreshold := anomalyThreshold currentProfile;
     lastUpdated := now |}.

End BehaviorAnalysis.

(** ** services/mlService.ts (rolling-history z-score variant) *)
Module MLService.

Record MLUserProfile := mkMLProfile {
  userId : string;
  typingIntervals : list R;
  mouseMovements : list R;
  scrollEvents : list R;
  baselineTypingInterval : R;
  baselineMouseActivity : R;
  baselineScrollPattern : R;
  lastUpdated : Z
}.

(** The [userProfiles] map of the singleton. *)
Abbreviation Store := (gmap string MLUserProfile).

(** [arr.slice(-k)]: the last [k] elements (the whole array when shorter). *)
Definition sliceLast (k : nat) (l : list R) : list R := skipn (length l - k) l.

(** [arr.reduce((a, b) => a + b, 0)] *)
Definition sum (l : list R) : R := fold_left Rplus l 0.

(** Mean and population standard deviation as written in each
    [calculate*Anomaly]. *)
Definition mean (l : list R) : R := sum l / INR (length l).

Definition std (l : list R) : R :=
  let m := mean l in
  sqrt (fold_left (fun acc v => acc + (v - m) ^ 2) l 0 / INR (length l)).

(** The body shared verbatim by [calculateTypingAnomaly],
    [calculateMouseAnomaly] and [calculateScrollAnomaly]. *)
Definition zAnomaly (current : R) (history : list R) : R :=
  if (length history <? 5)%nat then 0
  else
    let m := mean history in
    let sd := std history in
    if Req_dec_T sd 0 then 0
    else
      let zScore := Rabs (current - m) / sd in
      Rmin 100 (zScore * 20).

Definition calculateTypingAnomaly (currentInterval : R) (profile : MLUserProfile) : R :=
  zAnomaly currentInterval (typingIntervals profile).

Definition calculateMouseAnomaly (currentMovements : R) (profile : MLUserProfile) : R :=
  zAnomaly currentMovements (mouseMovements profile).

Definition calculateScrollAnomaly (currentScrolls : R) (profile : MLUserProfile) : R :=
  zAnomaly currentScrolls (scrollEvents profile).

Definition calculateConfidence (profile : MLUserProfile) : R :=
  let dataPoints := Nat.min (Nat.min (length (typingIntervals profile))
                                     (length (mouseMovements profile)))
                            (length (scrollEvents profile)) in
  if (dataPoints <? 5)%nat then 0.3
  else if (dataPoints <? 20)%nat then 0.6
  else if (dataPoints <? 50)%nat then 0.8
  else 0.95.

Definition updateBaseline (current newValue alpha : R) : R :=
  current * (1 - alpha) + newValue * alpha.

(** [updateProfile] mutates the profile object in place; the value returned
    here is that object after the mutation. *)
Definition updateProfile (profile : MLUserProfile) (metrics : BehaviorMetrics)
    (now : Z) : MLUserProfile :=
  let alpha := 0.1 in
  {| userId := userId profile;
     typingIntervals :=
       sliceLast 100 (typingIntervals profile ++ [avgTypingInterval metrics]);
     mouseMovements :=
       sliceLast 100 (mouseMovements profile ++ [mouseMovementCount metrics]);
     scrollEvents :=
       sliceLast 100 (scrollEvents profile ++ [scrollEventCount metrics]);
     baselineTypingInterval :=
       updateBaseline (baselineTypingInterval profile) (avgTypingInterval metrics) alpha;
     baselineMouseActivity :=
       updateBaseline (baselineMouseActivity profile) (mouseMovementCount metrics) alpha;
     baselineScrollPattern :=
       updateBaseline (baselineScrollPattern profile) (scrollEventCount metrics) alpha;
     lastUpdated := now |}.

Definition getOrCreateProfile (userProfiles : Store) (uid : string) (now : Z)
  : MLUserProfile * Store :=
  match userProfiles !! uid with
  | Some p => (p, userProfiles)
  | None =>
      let newProfile :=
        {| userId := uid; typingIntervals := []; mouseMovements := [];
           scrollEvents := []; baselineTypingInterval := 250;
           baselineMouseActivity := 50; baselineScrollPattern := 10;
           lastUpdated := now |} in
      (newProfile, <[uid := newProfile]> userProfiles)
  end.

(** Lines following the profile update in [analyzeBehavior]: scoring,
    recommendation, confidence and factors, all read from [profile]. *)
Definition scoreProfile (profile : MLUserProfile) (behaviorMetrics : BehaviorMetrics)
  : AnomalyAnalysis :=
  let typingScore := calculateTypingAnomaly (avgTypingInterval behaviorMetrics) profile in
  let mouseScore := calculateMouseAnomaly (mouseMovementCount behaviorMetrics) profile in
  let scrollScore := calculateScrollAnomaly (scrollEventCount behaviorMetrics) profile in
  let overallScore := typingScore * 0.4 + mouseScore * 0.3 + scrollScore * 0.3 in
  let recommendation :=
    if Rlt_dec overallScore 30 then Pass
    else if Rlt_dec overallScore 70 then Reauthenticate
    else Lock in
  let confidence := calculateConfidence profile in
  let f1 : list Factor :=
    if Rlt_dec 30 typingScore then [mkFactor "Typing anomaly" typingScore] else [] in
  let f2 := if Rlt_dec 30 mouseScore
            then f1 ++ [mkFactor "Mouse activity anomaly" mouseScore] else f1 in
  let f3 := if Rlt_dec 30 scrollScore
            then f2 ++ [mkFactor "Scroll pattern anomaly" scrollScore] else f2 in
  mkAnalysis (Rmin 100 (Rmax 0 overallScore)) confidence f3 recommendation.

(** [analyzeBehavior(userId, behaviorMetrics)]: get or create the profile,
    update it in place (the map keeps the same object), then score it. *)
Definition analyzeBehavior (userProfiles : Store) (uid : string)
    (behaviorMetrics : BehaviorMetrics) (now : Z) : AnomalyAnalysis * Store :=
  let '(profile0, userProfiles1) := getOrCreateProfile userProfiles uid now in
  let profile := updateProfile profile0 behaviorMetrics now in
  (scoreProfile profile behaviorMetrics, <[uid := profile]> userProfiles1).

End MLService.

(** ** services/userService.ts *)
Module UserService.

(** [users] is a [Map] keyed by username, iterated in insertion order by
    [Array.from(this.users.values())]: an association list. *)
Record State := mkState {
  users : list (string * User);
  sessions : gmap string Session;
  flagLogs : list FlagLog
}.

Definition getAllUsers (st : State) : list User := map snd (users st).

(** [session.lastActivity = new Date(); session.anomalyScore = anomalyScore;]
    on the object stored in the map. *)
Definition updateSessionActivity (ss : gmap string Session) (sessionId : string)
    (score : R) (now : Z) : gmap string Session :=
  match ss !! sessionId with
  | Some session =>
      <[sessionId := {| s_id := s_id session; s_userId := s_userId session;
                        startTime := startTime session; lastActivity := now;
                        isActive := isActive session; anomalyScore := score |}]> ss
  | None => ss
  end.

Definition endSession (ss : gmap string Session) (sessionId : string)
  : gmap string Session :=
  match ss !! sessionId with
  | Some session =>
      <[sessionId := {| s_id := s_id session; s_userId := s_userId session;
                        startTime := startTime session;
                        lastActivity := lastActivity session;
                        isActive := false;
                        anomalyScore := anomalyScore session |}]> ss
  | None => ss
  end.

(** [addFlagLog]: [{ ...flagLog, id: Date.now().toString() }] appended. *)
Definition addFlagLog (fl : list FlagLog) (sessionId : string) (ts : Z)
    (type : FlagType) (sev : Severity) (desc : FlagDescription) (act : string)
    (res : bool) (now : Z) : list FlagLog :=
  fl ++ [mkFlagLog (pretty now) sessionId ts type sev desc act res].

(** [Array.from(this.users.values()).find(u => u.id === userId)] followed by
    [user.behaviorProfile = updatedProfile]: only the first match changes. *)
Fixpoint setFirstProfile (us : list (string * User)) (uid : string)
    (newMetrics : BehaviorMetrics) (learningRate : R) (now : Z)
  : list (string * User) :=
  match us with
  | [] => []
  | (k, u) :: rest =>
      if String.eqb (u_id u) uid then
        (k, {| u_id := u_id u; username := username u; email := email u;
               behaviorProfile := BehaviorAnalysis.updateProfile
                  (behaviorProfile u) newMetrics learningRate now;
               createdAt := createdAt u; lastLogin := lastLogin u |}) :: rest
      else (k, u) :: setFirstProfile rest uid newMetrics learningRate now
  end.

Definition updateBehaviorProfile (st : State) (uid : string)
    (newMetrics : BehaviorMetrics) (learningRate : R) (now : Z) : State :=
  mkState (setFirstProfile (users st) uid newMetrics learningRate now)
          (sessions st) (flagLogs st).

Definition findUser (st : State) (uid : string) : option User :=
  find (fun u => String.eqb (u_id u) uid) (getAllUsers st).

End UserService.

(** ** routes/behavior.ts: POST /analyze *)
Module BehaviorRoute.
Import UserService.

Inductive Response :=
  | BadRequest                                   (* 400 *)
  | UserNotFound                                 (* 404 *)
  | Analyzed (analysis : AnomalyAnalysis) (updatedProfile : BehaviorProfile).

(** JavaScript truthiness of an optional string. *)
Definition truthy (s : option string) : option string :=
  match s with
  | Some v => if String.eqb v "" then None else Some v
  | None => None
  end.

Definition severityOf (score : R) : Severity :=
  if Rlt_dec 70 score then High else if Rlt_dec 50 score then Medium else Low.

Definition actionOf (r : Recommendation) : string :=
  match r with
  | Lock => "Session locked"
  | Reauthenticate => "Request re-authentication"
  | Pass => "Monitor"
  end.

Definition analyzeHandler (st : State) (uid : string)
    (behaviorMetrics : option BehaviorMetrics) (sessionId : option string)
    (now : Z) : Response * State :=
  match behaviorMetrics with
  | None => (BadRequest, st)
  | Some bm =>
    if String.eqb uid "" then (BadRequest, st) else
    match findUser st uid with
    | None => (UserNotFound, st)
    | Some user =>
      let analysis := BehaviorAnalysis.analyzeBehavior bm (behaviorProfile user) in
      let sessions1 :=
        match truthy sessionId with
        | Some sid => updateSessionActivity (sessions st) sid (score analysis) now
        | None => sessions st
        end in
      let flags1 :=
        if Rlt_dec 30 (score analysis) then
          addFlagLog (flagLogs st)
            (match truthy sessionId with Some sid => sid | None => "unknown" end)
            now FSession (severityOf (score analysis))
            (RealTimeAnomaly (score analysis) (factors analysis))
            (actionOf (recommendation analysis)) false now
        else flagLogs st in
      let st1 := mkState (users st) sessions1 flags1 in
      let st2 := updateBehaviorProfile st1 (u_id user) bm 0.1 now in
      let updated :=
        match findUser st2 (u_id user) with
        | Some u => behaviorProfile u
        | None => behaviorProfile user
        end in
      (Analyzed analysis updated, st2)
    end
  end.

End BehaviorRoute.

(** ** Further code of the same files *)

(** [BehaviorAnalysisService.createBaselineProfile]. *)
Module BaselineProfile.



End BaselineProfile.

(** [MLService.getProfile] and [MLService.deleteProfile]. *)
Module MLStore.

Definition getProfile (userProfiles : MLService.Store) (uid : string)
  : option MLService.MLUserProfile := userProfiles !! uid.

(** [this.userProfiles.delete(userId)]: whether the key was present, and the
    map without it. *)
Definition deleteProfile (userProfiles : MLService.Store) (uid : string)
  : bool * MLService.Store :=
  (bool_decide (is_Some (userProfiles !! uid)), delete uid userProfiles).

End MLStore.

(** The remaining methods of [UserService] used by the routes. *)
Module UserServiceOps.
Import UserService.

(** [Map.get] on the username-keyed users map. *)
Fixpoint assocGet (us : list (string * User)) (k : string) : option User :=
  match us with
  | [] => None
  | (k', u) :: rest => if String.eqb k' k then Some u else assocGet rest k
  end.

(** [Map.set]: replace the value of an existing key in place, else append. *)
Fixpoint assocSet (us : list (string * User)) (k : string) (u : User)
  : list (string * User) :=
  match us with
  | [] => [(k, u)]
  | (k', u') :: rest =>
      if String.eqb k' k then (k, u) :: rest else (k', u') :: assocSet rest k u
  end.

(** [Map.delete]. *)
Definition assocDelete (us : list (string * User)) (k : string)
  : list (string * User) :=
  List.filter (fun e => negb (String.eqb e.1 k)) us.

Definition getUserByUsername (st : State) (username : string) : option User :=
  assocGet (users st) username.

(** [authenticateUser]: an existing user gets [lastLogin = new Date()]; an
    unknown username creates a user (demo behaviour).  Every clock read of the
    call ([Date.now()], [new Date()]) is the instant [now]. *)
Definition authenticateUser (st : State) (uname : string) (now : Z) : User * State :=
  match assocGet (users st) uname with
  | Some user =>
      let user' := {| u_id := u_id user; username := username user;
                      email := email user; behaviorProfile := behaviorProfile user;
                      createdAt := createdAt user; lastLogin := now |} in
      (user', mkState (assocSet (users st) uname user') (sessions st) (flagLogs st))
  | None =>
      let newUser :=
        {| u_id := pretty now; username := uname;
           email := uname +:+ "@example.com";
           behaviorProfile := mkProfile (pretty now) 250 50 10 30 now;
           createdAt := now; lastLogin := now |} in
      (newUser, mkState (assocSet (users st) uname newUser) (sessions st) (flagLogs st))
  end.

Definition createSession (ss : gmap string Session) (uid : string) (now : Z)
  : Session * gmap string Session :=
  let session := mkSession ("session-" +:+ pretty now) uid now now true 0 in
  (session, <[s_id session := session]> ss).

Definition getSession (ss : gmap string Session) (sessionId : string) : option Session :=
  ss !! sessionId.

(** [Array.from(this.sessions.values()).filter(session => session.isActive)];
    the map's iteration order is that of [map_to_list]. *)
Definition getActiveSessions (ss : gmap string Session) : list Session :=
  List.filter isActive (map snd (map_to_list ss)).

(** [getFlagLogs(sessionId?)]: filter by session when the id is truthy. *)
Definition getFlagLogs (fl : list FlagLog) (sessionId : option string) : list FlagLog :=
  match BehaviorRoute.truthy sessionId with
  | Some sid => List.filter (fun log => String.eqb (f_sessionId log) sid) fl
  | None => fl
  end.

(** [resolveFlagLog]: the first log with the id gets [resolved = true]. *)
Fixpoint resolveFlagLog (fl : list FlagLog) (flagLogId : string) : bool * list FlagLog :=
  match fl with
  | [] => (false, [])
  | log :: rest =>
      if String.eqb (f_id log) flagLogId then
        (true, {| f_id := f_id log; f_sessionId := f_sessionId log;
                  timestamp := timestamp log; f_type := f_type log;
                  severity := severity log; description := description log;
                  action := action log; resolved := true |} :: rest)
      else
        let '(b, rest') := resolveFlagLog rest flagLogId in (b, log :: rest')
  end.

(** [deleteUser]: the first user with the id is removed under its username. *)
Definition deleteUser (st : State) (uid : string) : bool * State :=
  match findUser st uid with
  | Some u => (true, mkState (assocDelete (users st) (username u)) (sessions st)
                             (flagLogs st))
  | None => (false, st)
  end.

(** [user.behaviorProfile.<field> = ...] on the first user with the id. *)
Fixpoint mapFirstUser (f : User -> User) (us : list (string * User)) (uid : string)
  : list (string * User) :=
  match us with
  | [] => []
  | (k, u) :: rest =>
      if String.eqb (u_id u) uid then (k, f u) :: rest
      else (k, u) :: mapFirstUser f rest uid
  end.

End UserServiceOps.

(** Further handlers of routes/behavior.ts and routes/auth.ts. *)
Module MoreRoutes.
Import UserService UserServiceOps.

(** POST /logout *)
Definition logoutHandler (st : State) (sessionId : option string) : State :=
  match BehaviorRoute.truthy sessionId with
  | Some sid => mkState (users st) (endSession (sessions st) sid) (flagLogs st)
  | None => st
  end.

Record Stats := mkStats {
  totalSessions : nat;
  activeSessions : nat;
  averageAnomalyScore : R;
  totalFlags : nat;
  resolvedFlags : nat;
  statsProfile : BehaviorProfile
}.

(** GET /stats/:userId *)
Definition statsHandler (st : State) (uid : string) : option Stats :=
  match findUser st uid with
  | None => None
  | Some user =>
      let ss := getActiveSessions (sessions st) in
      let userSessions := List.filter (fun s => String.eqb (s_userId s) uid) ss in
      let logs := List.filter
          (fun log => existsb (fun s => String.eqb (s_id s) (f_sessionId log)) userSessions)
          (getFlagLogs (flagLogs st) None) in
      Some {| totalSessions := length userSessions;
              activeSessions := length (List.filter isActive userSessions);
              averageAnomalyScore :=
                if (0 <? length userSessions)%nat
                then fold_left (fun sum s => sum + anomalyScore s) userSessions 0
                       / INR (length userSessions)
                else 0;
              totalFlags := length logs;
              resolvedFlags := length (List.filter resolved logs);
              statsProfile := behaviorProfile user |}
  end.

(** [if (x !== undefined) field = x] *)
Definition setIfDefined (x : option R) (old : R) : R :=
  match x with Some v => v | None => old end.

(** PUT /profile/:userId: the supplied fields overwrite the stored profile of
    the first user with the id, and [lastUpdated] is set; [None] is the 404. *)
Definition updateProfileHandler (st : State) (uid : string)
    (bt bm bs th : option R) (now : Z) : option BehaviorProfile * State :=
  match findUser st uid with
  | None => (None, st)
  | Some _ =>
      let f u :=
        let p := behaviorProfile u in
        {| u_id := u_id u; username := username u; email := email u;
           behaviorProfile :=
             {| userId := userId p;
                baselineTypingInterval := setIfDefined bt (baselineTypingInterval p);
                baselineMouseActivity := setIfDefined bm (baselineMouseActivity p);
                baselineScrollPattern := setIfDefined bs (baselineScrollPattern p);
                anomalyThreshold := setIfDefined th (anomalyThreshold p);
                lastUpdated := now |};
           createdAt := createdAt u; lastLogin := lastLogin u |} in
      let st' := mkState (mapFirstUser f (users st) uid) (sessions st) (flagLogs st) in
      (option_map behaviorProfile (findUser st' uid), st')
  end.

End MoreRoutes.

(** ** JavaScript numbers as IEEE binary64 *)
Module JSNumber.
Import PrimFloat.
Local Open Scope float_scope.

(** [Math.min(x, y)]: NaN when either argument is NaN; [-0] is below [+0]. *)
Definition js_min (x y : float) : float :=
  if is_nan x || is_nan y then nan
  else if x <? y then x else if y <? x then y
  else if get_sign x then x else y.

(** [Math.max(x, y)]: NaN when either argument is NaN; [+0] is above [-0]. *)
Definition js_max (x y : float) : float :=
  if is_nan x || is_nan y then nan
  else if x <? y then y else if y <? x then x
  else if get_sign x then y else x.

(** [arr.length] used as a number. *)
Definition lengthF {A} (l : list A) : float :=
  of_uint63 (Uint63.of_Z (Z.of_nat (length l))).

(** [Math.pow(d, 2)], taken as the correctly rounded square. *)
Definition pow2 (d : float) : float := d * d.

End JSNumber.

(** ** behaviorAnalysis.ts, [updateBaseline] over binary64 *)
Module BehaviorAnalysisF.
Import PrimFloat.
Local Open Scope float_scope.

Definition updateBaseline (currentBaseline newValue learningRate : float) : float :=
  currentBaseline * (1 - learningRate) + newValue * learningRate.

End BehaviorAnalysisF.

(** ** mlService.ts over binary64 *)
Module MLServiceF.
Import PrimFloat JSNumber.
Local Open Scope float_scope.

Record BehaviorMetrics := mkMetrics {
  avgTypingInterval : float;
  mouseMovementCount : float;
  scrollEventCount : float;
  sessionDuration : float
}.

Record MLUserProfile := mkMLProfile {
  userId : string;
  typingIntervals : list float;
  mouseMovements : list float;
  scrollEvents : list float;
  baselineTypingInterval : float;
  baselineMouseActivity : float;
  baselineScrollPattern : float;
  lastUpdated : Z
}.

Record Factor := mkFactor {
  factor_label : string;
  factor_pct : float
}.

Record AnomalyAnalysis := mkAnalysis {
  score : float;
  confidence : float;
  factors : list Factor;
  recommendation : Recommendation
}.

Abbreviation Store := (gmap string MLUserProfile).

(** [arr.slice(-k)] *)
Definition sliceLast (k : nat) (l : list float) : list float := skipn (length l - k) l.

(** The body shared by [calculateTypingAnomaly], [calculateMouseAnomaly] and
    [calculateScrollAnomaly]; both [reduce] calls are left folds from 0. *)
Definition zAnomaly (current : float) (history : list float) : float :=
  if Nat.ltb (length history) 5 then 0
  else
    let mean := fold_left (fun a b => a + b) history 0 / lengthF history in
    let std := sqrt (fold_left (fun sum val => sum + pow2 (val - mean)) history 0
                     / lengthF history) in
    if std =? 0 then 0
    else
      let zScore := abs (current - mean) / std in
      js_min 100 (zScore * 20).

Definition calculateTypingAnomaly (currentInterval : float) (profile : MLUserProfile) : float :=
  zAnomaly currentInterval (typingIntervals profile).

Definition calculateMouseAnomaly (currentMovements : float) (profile : MLUserProfile) : float :=
  zAnomaly currentMovements (mouseMovements profile).

Definition calculateScrollAnomaly (currentScrolls : float) (profile : MLUserProfile) : float :=
  zAnomaly currentScrolls (scrollEvents profile).

Definition calculateConfidence (profile : MLUserProfile) : float :=
  let dataPoints := Nat.min (Nat.min (length (typingIntervals profile))
                                     (length (mouseMovements profile)))
                            (length (scrollEvents profile)) in
  if Nat.ltb dataPoints 5 then 0.3
  else if Nat.ltb dataPoints 20 then 0.6
  else if Nat.ltb dataPoints 50 then 0.8
  else 0.95.

Definition updateBaseline (current newValue alpha : float) : float :=
  current * (1 - alpha) + newValue * alpha.

Definition updateProfile (profile : MLUserProfile) (metrics : BehaviorMetrics)
    (now : Z) : MLUserProfile :=
  let alpha := 0.1 in
  {| userId := userId profile;
     typingIntervals :=
       sliceLast 100 (typingIntervals profile ++ [avgTypingInterval metrics]);
     mouseMovements :=
       sliceLast 100 (mouseMovements profile ++ [mouseMovementCount metrics]);
     scrollEvents :=
       sliceLast 100 (scrollEvents profile ++ [scrollEventCount metrics]);
     baselineTypingInterval :=
       updateBaseline (baselineTypingInterval profile) (avgTypingInterval metrics) alpha;
     baselineMouseActivity :=
       updateBaseline (baselineMouseActivity profile) (mouseMovementCount metrics) alpha;
     baselineScrollPattern :=
       updateBaseline (baselineScrollPattern profile) (scrollEventCount metrics) alpha;
     lastUpdated := now |}.

Definition getOrCreateProfile (userProfiles : Store) (uid : string) (now : Z)
  : MLUserProfile * Store :=
  match userProfiles !! uid with
  | Some p => (p, userProfiles)
  | None =>
      let newProfile :=
        {| userId := uid; typingIntervals := []; mouseMovements := [];
           scrollEvents := []; baselineTypingInterval := 250;
           baselineMouseActivity := 50; baselineScrollPattern := 10;
           lastUpdated := now |} in
      (newProfile, <[uid := newProfile]> userProfiles)
  end.

(** Scoring, recommendation ([<] is false on NaN), confidence and factors of
    [analyzeBehavior], read from the updated profile. *)
Definition scoreProfile (profile : MLUserProfile) (behaviorMetrics : BehaviorMetrics)
  : AnomalyAnalysis :=
  let typingScore := calculateTypingAnomaly (avgTypingInterval behaviorMetrics) profile in
  let mouseScore := calculateMouseAnomaly (mouseMovementCount behaviorMetrics) profile in
  let scrollScore := calculateScrollAnomaly (scrollEventCount behaviorMetrics) profile in
  let overallScore := typingScore * 0.4 + mouseScore * 0.3 + scrollScore * 0.3 in
  let recommendation :=
    if overallScore <? 30 then Pass
    else if overallScore <? 70 then Reauthenticate
    else Lock in
  let confidence := calculateConfidence profile in
  let f1 : list Factor :=
    if 30 <? typingScore then [mkFactor "Typing anomaly" typingScore] else [] in
  let f2 := if 30 <? mouseScore
            then f1 ++ [mkFactor "Mouse activity anomaly" mouseScore] else f1 in
  let f3 := if 30 <? scrollScore
            then f2 ++ [mkFactor "Scroll pattern anomaly" scrollScore] else f2 in
  mkAnalysis (js_min 100 (js_max 0 overallScore)) confidence f3 recommendation.

Definition analyzeBehavior (userProfiles : Store) (uid : string)
    (behaviorMetrics : BehaviorMetrics) (now : Z) : AnomalyAnalysis * Store :=
  let '(profile0, userProfiles1) := getOrCreateProfile userProfiles uid now in
  let profile := updateProfile profile0 behaviorMetrics now in
  (scoreProfile profile behaviorMetrics, <[uid := profile]> userProfiles1).

End MLServiceF.

(** [n] successive binary64 baseline updates with the same sample [v] and
    rate [a]. *)
Definition ema_iterF (upd : PrimFloat.float -> PrimFloat.float -> PrimFloat.float ->
    PrimFloat.float) (a : PrimFloat.float) (n : nat) (b v : PrimFloat.float)
  : PrimFloat.float :=
  Nat.iter n (fun x => upd x v a) b.

(** * Properties *)

(** ** Helper lemmas *)


(** The recommendation both scorers compute from a raw score [x], read back
    on the clamped score [Rmin 100 (Rmax 0 x)]. *)
Lemma recommendation_of_clamped (x : R) :
  let s := Rmin 100 (Rmax 0 x) in
  let r := if Rlt_dec x 30 then Pass else if Rlt_dec x 70 then Reauthenticate else Lock in
  (s < 30 -> r = Pass) /\ (30 <= s < 70 -> r = Reauthenticate) /\ (70 <= s -> r = Lock).
Proof.
  cbv zeta. unfold Rmin, Rmax.
  repeat destruct Rle_dec; repeat destruct Rlt_dec; repeat split; intros; lra.
Qed.

(** ** Claims *)

(** C2: each scalar per-signal deviation (typing, mouse, scroll) is
    [min(100, |current - baseline| / baseline * 100)] when the baseline is
    positive and [0] when the baseline is [0]. *)
Theorem C2_scalar_deviation (c b : R) :
  (0 < b ->
     BehaviorAnalysis.analyzeTypingBehavior c b = Rmin 100 (Rabs (c - b) / b * 100) /\
     BehaviorAnalysis.analyzeMouseBehavior c b = Rmin 100 (Rabs (c - b) / b * 100) /\
     BehaviorAnalysis.analyzeScrollBehavior c b = Rmin 100 (Rabs (c - b) / b * 100)) /\
  (b = 0 ->
     BehaviorAnalysis.analyzeTypingBehavior c b = 0 /\
     BehaviorAnalysis.analyzeMouseBehavior c b = 0 /\
     BehaviorAnalysis.analyzeScrollBehavior c b = 0).
Proof.
  unfold BehaviorAnalysis.analyzeTypingBehavior, BehaviorAnalysis.analyzeMouseBehavior,
    BehaviorAnalysis.analyzeScrollBehavior.
  split; intros H; destruct (Req_dec_T b 0); try lra; auto.
Qed.

Lemma C2_scalar_deviation_witness :
  (0 < 250 ->
     BehaviorAnalysis.analyzeTypingBehavior 300 250 = Rmin 100 (Rabs (300 - 250) / 250 * 100) /\
     BehaviorAnalysis.analyzeMouseBehavior 300 250 = Rmin 100 (Rabs (300 - 250) / 250 * 100) /\
     BehaviorAnalysis.analyzeScrollBehavior 300 250 = Rmin 100 (Rabs (300 - 250) / 250 * 100)) /\
  (0 < 250) /\ ((0:R) = 0).
Proof.
  split; [exact (proj1 (C2_scalar_deviation 300 250))|].
  split; [lra | reflexivity].
Defined.

(** C3: in both scorers the recommendation read on the returned score [s] is
    [pass] for [s < 30], [reauthenticate] for [30 <= s < 70] and [lock] for
    [s >= 70]; in particular 29.9 gives pass, 30.0 and 69.9 reauthenticate and
    70.0 lock. *)
Theorem C3_recommendation_thresholds :
  (forall (m : BehaviorMetrics) (p : BehaviorProfile),
     let a := BehaviorAnalysis.analyzeBehavior m p in
     (score a < 30 -> recommendation a = Pass) /\
     (30 <= score a < 70 -> recommendation a = Reauthenticate) /\
     (70 <= score a -> recommendation a = Lock)) /\
  (forall (store : MLService.Store) (uid : string) (m : BehaviorMetrics) (now : Z),
     let a := (MLService.analyzeBehavior store uid m now).1 in
     (score a < 30 -> recommendation a = Pass) /\
     (30 <= score a < 70 -> recommendation a = Reauthenticate) /\
     (70 <= score a -> recommendation a = Lock)).
Proof.
  split.
  - intros m p. cbv zeta. unfold BehaviorAnalysis.analyzeBehavior; cbn [score recommendation].
    set (s := Rmin 100 (Rmax 0 _)).
    repeat destruct Rlt_dec; repeat split; intros; lra.
  - intros store uid m now. cbv zeta. unfold MLService.analyzeBehavior.
    destruct (MLService.getOrCreateProfile store uid now) as [p0 st1].
    unfold MLService.scoreProfile; cbn [fst score recommendation].
    apply recommendation_of_clamped.
Qed.

(** Witness: a sample equal to the default baseline with a long session
    scores 0 and passes. *)
Lemma C3_recommendation_thresholds_witness :
  let a := BehaviorAnalysis.analyzeBehavior
             (mkMetrics 250 50 10 60000) (mkProfile "1" 250 50 10 30 0) in
  score a < 30 /\ recommendation a = Pass.
Proof.
  cbv zeta.
  assert (Hs : score (BehaviorAnalysis.analyzeBehavior
             (mkMetrics 250 50 10 60000) (mkProfile "1" 250 50 10 30 0)) = 0).
  { unfold BehaviorAnalysis.analyzeBehavior, BehaviorAnalysis.pushIfPositive,
      BehaviorAnalysis.analyzeTypingBehavior, BehaviorAnalysis.analyzeMouseBehavior,
      BehaviorAnalysis.analyzeScrollBehavior, BehaviorAnalysis.analyzeSessionBehavior;
    cbn [score avgTypingInterval baselineTypingInterval mouseMovementCount
      baselineMouseActivity scrollEventCount baselineScrollPattern sessionDuration].
    repeat (destruct Req_dec_T; [lra|]).
    replace (250 - 250) with 0 by lra. replace (50 - 50) with 0 by lra.
    replace (10 - 10) with 0 by lra. rewrite Rabs_R0.
    repeat (destruct Rlt_dec; [try lra|]); cbn; unfold Rmin, Rmax;
      repeat destruct Rle_dec; lra. }
  split; [lra|].
  apply (proj1 (proj1 C3_recommendation_thresholds _ _)). lra.
Defined.

(** C10: the scalar profile update keeps [userId] and [anomalyThreshold] of
    the input profile, so a manually set threshold survives adaptation. *)
Theorem C10_updateProfile_frame (p : BehaviorProfile) (m : BehaviorMetrics)
    (lr : R) (now : Z) :
  userId (BehaviorAnalysis.updateProfile p m lr now) = userId p /\
  anomalyThreshold (BehaviorAnalysis.updateProfile p m lr now) = anomalyThreshold p.
Proof. split; reflexivity. Qed.

(** C9: [endSession] sets the active flag of a known session to false and
    changes nothing else, is idempotent, and leaves the ledger unchanged for an
    unknown id; [updateSessionActivity] leaves it unchanged for an unknown id
    and, on a known session (ended or not), stores the new last-activity time
    and anomaly score. *)
Theorem C9_session_ledger :
  (forall (ss : gmap string Session) (sid : string) (s : Session),
     ss !! sid = Some s ->
     UserService.endSession ss sid !! sid =
       Some (mkSession (s_id s) (s_userId s) (startTime s) (lastActivity s)
                       false (anomalyScore s))) /\
  (forall (ss : gmap string Session) (sid : string),
     UserService.endSession (UserService.endSession ss sid) sid =
     UserService.endSession ss sid) /\
  (forall (ss : gmap string Session) (sid : string),
     ss !! sid = None -> UserService.endSession ss sid = ss) /\
  (forall (ss : gmap string Session) (sid : string) (sc : R) (now : Z),
     ss !! sid = None -> UserService.updateSessionActivity ss sid sc now = ss) /\
  (forall (ss : gmap string Session) (sid : string) (s : Session) (sc : R) (now : Z),
     ss !! sid = Some s ->
     UserService.updateSessionActivity ss sid sc now !! sid =
       Some (mkSession (s_id s) (s_userId s) (startTime s) now (isActive s) sc)).
Proof.
  unfold UserService.endSession, UserService.updateSessionActivity.
  split; [|split; [|split; [|split]]].
  - intros ss sid s H. rewrite H. by rewrite lookup_insert_eq.
  - intros ss sid. destruct (ss !! sid) as [s|] eqn:H; [|by rewrite H].
    rewrite lookup_insert_eq. by rewrite insert_insert_eq.
  - intros ss sid H. by rewrite H.
  - intros ss sid sc now H. by rewrite H.
  - intros ss sid s sc now H. rewrite H. by rewrite lookup_insert_eq.
Qed.

Definition ended_session : Session := mkSession "session-1" "1" 0%Z 5%Z false 0.

Lemma C9_session_ledger_witness :
  UserService.updateSessionActivity {[ "session-1" := ended_session ]} "session-1" 45 9%Z
    !! "session-1" = Some (mkSession "session-1" "1" 0%Z 9%Z false 45).
Proof.
  exact ((proj2 (proj2 (proj2 (proj2 C9_session_ledger))))
           {[ "session-1" := ended_session ]} "session-1" ended_session 45 9%Z
           (lookup_singleton_eq _ _)).
Defined.

(** ** Evaluation of the z-score service *)

Lemma ML_analyze_existing (store : MLService.Store) (uid : string)
    (p : MLService.MLUserProfile) (m : BehaviorMetrics) (now : Z) :
  store !! uid = Some p ->
  MLService.analyzeBehavior store uid m now =
    (MLService.scoreProfile (MLService.updateProfile p m now) m,
     <[uid := MLService.updateProfile p m now]> store).
Proof.
  intros H. unfold MLService.analyzeBehavior, MLService.getOrCreateProfile.
  by rewrite H.
Qed.

Lemma zAnomaly_short (c : R) (h : list R) :
  (length h < 5)%nat -> MLService.zAnomaly c h = 0.
Proof.
  intros H. unfold MLService.zAnomaly.
  destruct (Nat.ltb_spec (length h) 5); [reflexivity | lia].
Qed.

Lemma zAnomaly_sample : MLService.zAnomaly 20 [10; 10; 10; 10; 20] = 40.
Proof.
  unfold MLService.zAnomaly. cbn [length Nat.ltb Nat.leb].
  assert (Hm : MLService.mean [10; 10; 10; 10; 20] = 12).
  { unfold MLService.mean, MLService.sum. cbn [fold_left length].
    replace (INR 5) with 5 by (cbn; lra). lra. }
  assert (Hs : MLService.std [10; 10; 10; 10; 20] = 4).
  { unfold MLService.std. rewrite Hm. cbn [fold_left length].
    replace (INR 5) with 5 by (cbn; lra).
    replace ((0 + (10 - 12) ^ 2 + (10 - 12) ^ 2 + (10 - 12) ^ 2 + (10 - 12) ^ 2
              + (20 - 12) ^ 2) / 5) with (4 * 4) by lra.
    apply sqrt_square; lra. }
  rewrite Hm, Hs. destruct (Req_dec_T 4 0); [lra|].
  rewrite Rabs_right by lra. unfold Rmin; destruct Rle_dec; lra.
Qed.

(** A user "u" of the z-score service with four typing intervals of 10 ms on
    record and no mouse or scroll history yet. *)
Definition ml_user_u : MLService.MLUserProfile :=
  MLService.mkMLProfile "u" [10; 10; 10; 10] [] [] 250 50 10 0%Z.

Definition sample_20ms : BehaviorMetrics := mkMetrics 20 50 10 60000.

Lemma ml_user_u_updated (now : Z) :
  MLService.updateProfile ml_user_u sample_20ms now =
  MLService.mkMLProfile "u" [10; 10; 10; 10; 20] [50] [10]
    (MLService.updateBaseline 250 20 0.1) (MLService.updateBaseline 50 50 0.1)
    (MLService.updateBaseline 10 10 0.1) now.
Proof. reflexivity. Qed.

(** The scalar route scores against the profile stored before the request;
    its profile update comes afterwards. *)
Lemma analyzeHandler_scores_pre_update (st : UserService.State) (uid : string)
    (bm : BehaviorMetrics) (sid : option string) (now : Z) (u : User) :
  uid <> "" -> UserService.findUser st uid = Some u ->
  exists prof,
    (BehaviorRoute.analyzeHandler st uid (Some bm) sid now).1 =
    BehaviorRoute.Analyzed (BehaviorAnalysis.analyzeBehavior bm (behaviorProfile u)) prof.
Proof.
  intros Hu Hf. unfold BehaviorRoute.analyzeHandler.
  destruct (String.eqb_spec uid ""); [contradiction|]. rewrite Hf.
  eexists. reflexivity.
Qed.

(** C1 (z-score service): the request is scored against the rolling history
    that already contains the new sample.  With four typing intervals of 10 ms
    on record, a 20 ms sample scores 16, while the same scoring read on the
    pre-update profile gives 0. *)
Theorem C1_ml_scores_after_update :
  score (MLService.analyzeBehavior {[ "u" := ml_user_u ]} "u" sample_20ms 1%Z).1 = 16 /\
  score (MLService.scoreProfile ml_user_u sample_20ms) = 0.
Proof.
  rewrite (ML_analyze_existing _ _ ml_user_u) by apply lookup_singleton_eq.
  rewrite ml_user_u_updated. cbn [fst].
  unfold MLService.scoreProfile, MLService.calculateTypingAnomaly,
    MLService.calculateMouseAnomaly, MLService.calculateScrollAnomaly.
  cbn [score MLService.typingIntervals MLService.mouseMovements MLService.scrollEvents
       ml_user_u sample_20ms avgTypingInterval mouseMovementCount scrollEventCount].
  rewrite zAnomaly_sample.
  rewrite !zAnomaly_short by (cbn; lia).
  split; unfold Rmin, Rmax; repeat destruct Rle_dec; lra.
Qed.

(** A z-score profile holding [n] paired samples in each history. *)
Definition ml_profile_n (n : nat) : MLService.MLUserProfile :=
  MLService.mkMLProfile "u" (repeat 10 n) (repeat 50 n) (repeat 10 n) 250 50 10 0%Z.

Definition ml_call_confidence (n : nat) : R :=
  confidence (MLService.analyzeBehavior {[ "u" := ml_profile_n n ]} "u" sample_20ms 1%Z).1.

(** C7 (z-score service): [calculateConfidence] gives 0.3, 0.6, 0.8, 0.95 on
    profiles holding 4, 19, 49, 50 paired samples, but an analysis call made
    while the histories hold 4, 19, 49, 50 samples reports 0.6, 0.8, 0.95,
    0.95: the call appends the new sample before computing the confidence. *)
Theorem C7_confidence_counts_new_sample :
  (MLService.calculateConfidence (ml_profile_n 4) = 0.3 /\
   MLService.calculateConfidence (ml_profile_n 19) = 0.6 /\
   MLService.calculateConfidence (ml_profile_n 49) = 0.8 /\
   MLService.calculateConfidence (ml_profile_n 50) = 0.95) /\
  (ml_call_confidence 4 = 0.6 /\ ml_call_confidence 19 = 0.8 /\
   ml_call_confidence 49 = 0.95 /\ ml_call_confidence 50 = 0.95).
Proof.
  split; [repeat split; reflexivity|].
  unfold ml_call_confidence.
  repeat split;
    (rewrite (ML_analyze_existing _ _ (ml_profile_n _)) by apply lookup_singleton_eq;
     reflexivity).
Qed.

(** C8: after POST /analyze for a known user, one flag-log entry with
    [resolved = false] is appended exactly when the score exceeds 30; its
    severity is high above 70, medium above 50, low otherwise, and its action
    follows the recommendation. *)
Theorem C8_flag_raising (st : UserService.State) (uid : string)
    (bm : BehaviorMetrics) (sid : option string) (now : Z) (u : User) :
  uid <> "" -> UserService.findUser st uid = Some u ->
  let a := BehaviorAnalysis.analyzeBehavior bm (behaviorProfile u) in
  let st' := (BehaviorRoute.analyzeHandler st uid (Some bm) sid now).2 in
  (30 < score a ->
     exists fl,
       UserService.flagLogs st' = UserService.flagLogs st ++ [fl] /\
       resolved fl = false /\
       (70 < score a -> severity fl = High) /\
       (50 < score a <= 70 -> severity fl = Medium) /\
       (score a <= 50 -> severity fl = Low) /\
       (recommendation a = Lock -> action fl = "Session locked") /\
       (recommendation a = Reauthenticate -> action fl = "Request re-authentication") /\
       (recommendation a = Pass -> action fl = "Monitor")) /\
  (score a <= 30 -> UserService.flagLogs st' = UserService.flagLogs st).
Proof.
  intros Hu Hf. cbv zeta. unfold BehaviorRoute.analyzeHandler.
  destruct (String.eqb_spec uid ""); [contradiction|]. rewrite Hf.
  cbn [snd UserService.updateBehaviorProfile UserService.flagLogs].
  set (a := BehaviorAnalysis.analyzeBehavior bm (behaviorProfile u)).
  split; intros Hs.
  - destruct (Rlt_dec 30 (score a)); [|lra].
    unfold UserService.addFlagLog. eexists. split; [reflexivity|].
    cbn [resolved severity action]. unfold BehaviorRoute.severityOf.
    split; [reflexivity|].
    repeat split; intros; repeat destruct Rlt_dec; try lra; try reflexivity;
      subst; match goal with H : recommendation a = _ |- _ => rewrite H end;
      reflexivity.
  - destruct (Rlt_dec 30 (score a)); [lra|]. reflexivity.
Qed.



(** ** Evaluation of the scalar scorer *)

Ltac decide_R :=
  unfold Rmin, Rmax;
  repeat (destruct Rle_dec || destruct Rlt_dec || destruct Req_dec_T);
  cbv iota beta; try lra; try reflexivity.

Lemma deviation_value (c b d : R) :
  0 < b -> b <= c -> (c - b) / b * 100 = d ->
  BehaviorAnalysis.analyzeTypingBehavior c b = Rmin 100 d /\
  BehaviorAnalysis.analyzeMouseBehavior c b = Rmin 100 d /\
  BehaviorAnalysis.analyzeScrollBehavior c b = Rmin 100 d.
Proof.
  intros Hb Hc Hd.
  unfold BehaviorAnalysis.analyzeTypingBehavior, BehaviorAnalysis.analyzeMouseBehavior,
    BehaviorAnalysis.analyzeScrollBehavior.
  destruct (Req_dec_T b 0); [lra|]. rewrite Rabs_right by lra. rewrite Hd. auto.
Qed.

Lemma analyzeSession_long (d : R) :
  5000 <= d -> BehaviorAnalysis.analyzeSessionBehavior d = 0.
Proof.
  intros H. unfold BehaviorAnalysis.analyzeSessionBehavior.
  destruct Rlt_dec; [lra | reflexivity].
Qed.

Lemma zero_deviation (x : R) : (x - x) / x * 100 = 0.
Proof. replace (x - x) with 0 by ring. unfold Rdiv. ring. Qed.

Definition default_profile : BehaviorProfile := mkProfile "1" 250 50 10 30 0%Z.

(** The scalar analysis when mouse and scroll match the baseline and the
    session is long: only the typing score can contribute. *)
Lemma analyze_typing_only (t : R) (p : BehaviorProfile) (m : BehaviorMetrics) :
  BehaviorAnalysis.analyzeTypingBehavior (avgTypingInterval m)
     (baselineTypingInterval p) = t ->
  0 < baselineMouseActivity p -> mouseMovementCount m = baselineMouseActivity p ->
  0 < baselineScrollPattern p -> scrollEventCount m = baselineScrollPattern p ->
  5000 <= sessionDuration m ->
  score (BehaviorAnalysis.analyzeBehavior m p) = Rmin 100 (Rmax 0 (if Rlt_dec 0 t then 0 + t * 0.4 else 0)) /\
  factors (BehaviorAnalysis.analyzeBehavior m p) =
    (if Rlt_dec 0 t then [mkFactor "Typing speed deviation" t] else []) /\
  recommendation (BehaviorAnalysis.analyzeBehavior m p) =
    (let s := Rmin 100 (Rmax 0 (if Rlt_dec 0 t then 0 + t * 0.4 else 0)) in
     if Rlt_dec s 30 then Pass else if Rlt_dec s 70 then Reauthenticate else Lock).
Proof.
  intros Ht Hm0 Hm Hs0 Hs Hd.
  destruct (deviation_value (mouseMovementCount m) (baselineMouseActivity p) 0)
    as [_ [Hmouse _]]; try lra; [rewrite Hm; apply zero_deviation|].
  destruct (deviation_value (scrollEventCount m) (baselineScrollPattern p) 0)
    as [_ [_ Hscroll]]; try lra; [rewrite Hs; apply zero_deviation|].
  unfold BehaviorAnalysis.analyzeBehavior. cbv zeta.
  rewrite Ht, Hmouse, Hscroll, (analyzeSession_long _ Hd).
  replace (Rmin 100 0) with 0 by decide_R.
  unfold BehaviorAnalysis.pushIfPositive. cbn [score factors recommendation].
  destruct (Rlt_dec 0 t); destruct (Rlt_dec 0 0); try lra; cbn; auto.
Qed.

(** C4 (as stated) fails in the scalar scorer: a typing interval of 275 ms
    against a 250 ms baseline deviates by 10%, not more than 30%, yet the
    factor list names the typing signal. *)
Lemma C4_counterexample :
  ~ (forall (m : BehaviorMetrics) (p : BehaviorProfile),
       (exists f, In f (factors (BehaviorAnalysis.analyzeBehavior m p)) /\
                  factor_label f = "Typing speed deviation") <->
       30 < BehaviorAnalysis.analyzeTypingBehavior (avgTypingInterval m)
              (baselineTypingInterval p)).
Proof.
  intros H.
  set (m := mkMetrics 275 50 10 60000).
  assert (Ht : BehaviorAnalysis.analyzeTypingBehavior (avgTypingInterval m)
                 (baselineTypingInterval default_profile) = 10).
  { destruct (deviation_value 275 250 10) as [E _]; cbn; try lra.
    rewrite E. decide_R. }
  destruct (analyze_typing_only 10 default_profile m Ht) as [_ [Hf _]];
    cbn; try lra.
  specialize (H m default_profile). rewrite Ht in H.
  assert (Hin : exists f, In f (factors (BehaviorAnalysis.analyzeBehavior m default_profile))
                  /\ factor_label f = "Typing speed deviation").
  { rewrite Hf. destruct Rlt_dec; [|lra].
    eexists; split; [left; reflexivity | reflexivity]. }
  apply H in Hin. lra.
Qed.

(** The factor list a scorer should produce: one entry per signal whose score
    exceeds [thr], in the given order. *)
Definition factorEntries (thr : R) (entries : list (string * R)) : list Factor :=
  map (fun e => mkFactor e.1 e.2)
      (List.filter (fun e => if Rlt_dec thr e.2 then true else false) entries).

(** C4 (amended): the scalar scorer lists a signal exactly when its deviation
    score exceeds 0, in the order typing, mouse, scroll, session; the z-score
    scorer lists a signal exactly when its score exceeds 30, in the order
    typing, mouse, scroll (scores read on the profile it scores against). *)
Theorem C4_factors_amended :
  (forall (m : BehaviorMetrics) (p : BehaviorProfile),
     factors (BehaviorAnalysis.analyzeBehavior m p) =
     factorEntries 0
       [("Typing speed deviation",
          BehaviorAnalysis.analyzeTypingBehavior (avgTypingInterval m)
            (baselineTypingInterval p));
        ("Mouse activity deviation",
          BehaviorAnalysis.analyzeMouseBehavior (mouseMovementCount m)
            (baselineMouseActivity p));
        ("Scroll pattern deviation",
          BehaviorAnalysis.analyzeScrollBehavior (scrollEventCount m)
            (baselineScrollPattern p));
        ("Session duration anomaly",
          BehaviorAnalysis.analyzeSessionBehavior (sessionDuration m))]) /\
  (forall (store : MLService.Store) (uid : string) (m : BehaviorMetrics) (now : Z),
     let p := MLService.updateProfile
                (MLService.getOrCreateProfile store uid now).1 m now in
     factors (MLService.analyzeBehavior store uid m now).1 =
     factorEntries 30
       [("Typing anomaly", MLService.calculateTypingAnomaly (avgTypingInterval m) p);
        ("Mouse activity anomaly",
          MLService.calculateMouseAnomaly (mouseMovementCount m) p);
        ("Scroll pattern anomaly",
          MLService.calculateScrollAnomaly (scrollEventCount m) p)]).
Proof.
  split.
  - intros m p. unfold BehaviorAnalysis.analyzeBehavior. cbv zeta.
    cbn [factors]. unfold BehaviorAnalysis.pushIfPositive, factorEntries.
    cbn [List.filter map fst snd]. repeat destruct Rlt_dec; reflexivity.
  - intros store uid m now. cbv zeta. unfold MLService.analyzeBehavior.
    destruct (MLService.getOrCreateProfile store uid now) as [p0 st1].
    cbn [fst]. unfold MLService.scoreProfile, factorEntries. cbn [factors].
    cbn [List.filter map fst snd]. repeat destruct Rlt_dec; reflexivity.
Qed.

(** A typing interval of 1,000,000 ms with the other signals at the default
    baseline and a one-minute session. *)
Definition outlier_sample : BehaviorMetrics := mkMetrics 1000000 50 10 60000.

Lemma outlier_analysis :
  score (BehaviorAnalysis.analyzeBehavior outlier_sample default_profile) = 40 /\
  recommendation (BehaviorAnalysis.analyzeBehavior outlier_sample default_profile)
    = Reauthenticate.
Proof.
  assert (Ht : BehaviorAnalysis.analyzeTypingBehavior (avgTypingInterval outlier_sample)
                 (baselineTypingInterval default_profile) = 100).
  { destruct (deviation_value 1000000 250 399900) as [E _]; cbn; try lra.
    rewrite E. decide_R. }
  destruct (analyze_typing_only 100 default_profile outlier_sample Ht
              ltac:(cbn; lra) eq_refl ltac:(cbn; lra) eq_refl ltac:(cbn; lra))
    as [Hs [_ Hr]].
  rewrite Hs, Hr. split; decide_R.
Qed.







(** ** Binary64 properties *)
Module FloatProps.
Import PrimFloat SpecFloat FloatOps JSNumber.









(** C6 (code): in binary64 the update [b * (1 - 0.1) + v * 0.1] of both
    services leaves [[min(b, v), max(b, v)]]: with [b = v = 9.92] it returns
    9.920000000000002, above both; and repeating the update with sample 111.62
    from 61.9 stays at or below 111.62 for 323 steps, then passes it at step
    324 with 111.62000000000002. *)
Theorem C6_baseline_overshoot :
  BehaviorAnalysisF.updateBaseline 9.92 9.92 0.1 = 9.920000000000002%float /\
  (9.92 <? BehaviorAnalysisF.updateBaseline 9.92 9.92 0.1)%float = true /\
  MLServiceF.updateBaseline 9.92 9.92 0.1 = 9.920000000000002%float /\
  (9.92 <? MLServiceF.updateBaseline 9.92 9.92 0.1)%float = true /\
  (ema_iterF BehaviorAnalysisF.updateBaseline 0.1 323 61.9 111.62 <=? 111.62)%float = true /\
  ema_iterF BehaviorAnalysisF.updateBaseline 0.1 324 61.9 111.62
    = 111.62000000000002%float /\
  (111.62 <? ema_iterF BehaviorAnalysisF.updateBaseline 0.1 324 61.9 111.62)%float = true /\
  (ema_iterF MLServiceF.updateBaseline 0.1 323 61.9 111.62 <=? 111.62)%float = true /\
  ema_iterF MLServiceF.updateBaseline 0.1 324 61.9 111.62 = 111.62000000000002%float /\
  (111.62 <? ema_iterF MLServiceF.updateBaseline 0.1 324 61.9 111.62)%float = true.
Proof. repeat split; vm_compute; reflexivity. Qed.


End FloatProps.

Definition user_default : User :=
  mkUser "1" "john_doe" "john@example.com" default_profile 0%Z 0%Z.

Definition route_state : UserService.State :=
  UserService.mkState [("john_doe", user_default)] ∅ [].

(** The typing outlier sent to POST /analyze scores 40: one unresolved,
    low-severity entry asking for re-authentication is appended. *)
Lemma C8_flag_raising_witness :
  exists fl,
    UserService.flagLogs (snd (BehaviorRoute.analyzeHandler route_state "1"
        (Some outlier_sample) (Some "session-1") 7%Z)) = [fl] /\
    resolved fl = false /\ severity fl = Low /\
    action fl = "Request re-authentication".
Proof.
  destruct outlier_analysis as [Hs Hr].
  destruct (proj1 (C8_flag_raising route_state "1" outlier_sample (Some "session-1")
                     7%Z user_default ltac:(discriminate) eq_refl)
              ltac:(cbn [behaviorProfile user_default]; rewrite Hs; lra))
    as [fl (Hl & Hres & _ & _ & Hlow & _ & Hre & _)].
  exists fl. split; [exact Hl|]. split; [exact Hres|]. split.
  - apply Hlow. cbn [behaviorProfile user_default]. rewrite Hs. lra.
  - apply Hre. exact Hr.
Defined.

(** * Further properties of the code *)


(** X2: the scalar scorer's confidence always lies in [0.5, 0.8], and is 0.8
    when both the typing interval and the mouse count are non-zero. *)
Theorem X2_scalar_confidence_bounds (m : BehaviorMetrics) (p : BehaviorProfile) :
  0.5 <= confidence (BehaviorAnalysis.analyzeBehavior m p) <= 0.8 /\
  (avgTypingInterval m <> 0 -> mouseMovementCount m <> 0 ->
   confidence (BehaviorAnalysis.analyzeBehavior m p) = 0.8).
Proof.
  unfold BehaviorAnalysis.analyzeBehavior. cbv zeta. cbn [confidence].
  split.
  - unfold Rmax. repeat destruct Req_dec_T; destruct Rle_dec; lra.
  - intros Ht Hm. do 2 (destruct Req_dec_T; [contradiction|]).
    unfold Rmax; destruct Rle_dec; lra.
Qed.

Lemma X2_scalar_confidence_bounds_witness :
  confidence (BehaviorAnalysis.analyzeBehavior outlier_sample default_profile) = 0.8.
Proof.
  exact (proj2 (X2_scalar_confidence_bounds outlier_sample default_profile)
           ltac:(cbn; lra) ltac:(cbn; lra)).
Defined.

Lemma sliceLast_snoc (old : list R) (x : R) :
  MLService.sliceLast 100 (old ++ [x]) = skipn (length old + 1 - 100) old ++ [x].
Proof.
  unfold MLService.sliceLast. rewrite length_app; cbn [length].
  rewrite skipn_app. replace (length old + 1 - 100 - length old)%nat with 0%nat by lia.
  reflexivity.
Qed.

(** X5: each rolling history of the z-score service is first-in first-out
    with capacity 100: an update appends the sample and drops the oldest
    entries beyond 100. *)
Theorem X5_history_fifo (p : MLService.MLUserProfile) (m : BehaviorMetrics) (now : Z) :
  let p' := MLService.updateProfile p m now in
  MLService.typingIntervals p' =
    skipn (length (MLService.typingIntervals p) + 1 - 100) (MLService.typingIntervals p)
      ++ [avgTypingInterval m] /\
  MLService.mouseMovements p' =
    skipn (length (MLService.mouseMovements p) + 1 - 100) (MLService.mouseMovements p)
      ++ [mouseMovementCount m] /\
  MLService.scrollEvents p' =
    skipn (length (MLService.scrollEvents p) + 1 - 100) (MLService.scrollEvents p)
      ++ [scrollEventCount m] /\
  length (MLService.typingIntervals p') = Nat.min 100 (length (MLService.typingIntervals p) + 1) /\
  length (MLService.mouseMovements p') = Nat.min 100 (length (MLService.mouseMovements p) + 1) /\
  length (MLService.scrollEvents p') = Nat.min 100 (length (MLService.scrollEvents p) + 1).
Proof.
  cbv zeta. cbn [MLService.updateProfile MLService.typingIntervals
    MLService.mouseMovements MLService.scrollEvents].
  rewrite !sliceLast_snoc. rewrite !length_app, !length_skipn. cbn [length].
  repeat split; lia.
Qed.

Lemma short_profile_scores (p : MLService.MLUserProfile) (m : BehaviorMetrics) (now : Z) :
  (length (MLService.typingIntervals p) < 4)%nat ->
  (length (MLService.mouseMovements p) < 4)%nat ->
  (length (MLService.scrollEvents p) < 4)%nat ->
  let a := MLService.scoreProfile (MLService.updateProfile p m now) m in
  score a = 0 /\ recommendation a = Pass /\ factors a = [] /\ confidence a = 0.3.
Proof.
  intros Ht Hm Hs. cbv zeta.
  destruct (X5_history_fifo p m now) as (_ & _ & _ & Lt & Lm & Ls).
  set (p' := MLService.updateProfile p m now) in *.
  unfold MLService.scoreProfile, MLService.calculateTypingAnomaly,
    MLService.calculateMouseAnomaly, MLService.calculateScrollAnomaly.
  rewrite !zAnomaly_short by lia.
  cbn [score recommendation factors confidence].
  split; [decide_R|]. split; [decide_R|]. split; [decide_R|].
  unfold MLService.calculateConfidence. rewrite Lt, Lm, Ls.
  destruct (Nat.ltb_spec (Nat.min (Nat.min (Nat.min 100 (length (MLService.typingIntervals p) + 1))
             (Nat.min 100 (length (MLService.mouseMovements p) + 1)))
             (Nat.min 100 (length (MLService.scrollEvents p) + 1))) 5); [reflexivity | lia].
Qed.

(** X6: while a user's rolling histories hold fewer than 4 samples (in
    particular for a user the z-score service has never seen), a call scores
    0, passes, lists no factor and reports confidence 0.3. *)
Theorem X6_ml_short_history_passes (store : MLService.Store) (uid : string)
    (m : BehaviorMetrics) (now : Z) :
  (forall p, store !! uid = Some p ->
     (length (MLService.typingIntervals p) < 4)%nat /\
     (length (MLService.mouseMovements p) < 4)%nat /\
     (length (MLService.scrollEvents p) < 4)%nat) ->
  let a := (MLService.analyzeBehavior store uid m now).1 in
  score a = 0 /\ recommendation a = Pass /\ factors a = [] /\ confidence a = 0.3.
Proof.
  intros H. cbv zeta. unfold MLService.analyzeBehavior, MLService.getOrCreateProfile.
  destruct (store !! uid) as [p|] eqn:E.
  - destruct (H p eq_refl) as (Ht & Hm & Hs). cbn [fst].
    apply short_profile_scores; assumption.
  - cbn [fst]. apply short_profile_scores; cbn; lia.
Qed.

Lemma X6_ml_short_history_passes_witness :
  confidence (MLService.analyzeBehavior ∅ "new-user" sample_20ms 3%Z).1 = 0.3.
Proof.
  exact (proj2 (proj2 (proj2 (X6_ml_short_history_passes ∅ "new-user" sample_20ms 3%Z
           ltac:(intros p H; rewrite lookup_empty in H; discriminate))))).
Defined.

(** X7: after a z-score call, [getProfile] returns the user's profile with
    the sample recorded (the stored profile, or the default profile 250 / 50 /
    10 with empty histories for a new user), and every other user's profile is
    unchanged. *)
Theorem X7_ml_store_after_analyze (store : MLService.Store) (uid : string)
    (m : BehaviorMetrics) (now : Z) :
  let store' := (MLService.analyzeBehavior store uid m now).2 in
  (forall p, store !! uid = Some p ->
     MLStore.getProfile store' uid = Some (MLService.updateProfile p m now)) /\
  (store !! uid = None ->
     MLStore.getProfile store' uid =
       Some (MLService.updateProfile
               (MLService.mkMLProfile uid [] [] [] 250 50 10 now) m now)) /\
  (forall uid', uid' <> uid -> MLStore.getProfile store' uid' = MLStore.getProfile store uid').
Proof.
  cbv zeta. unfold MLStore.getProfile, MLService.analyzeBehavior,
    MLService.getOrCreateProfile.
  split; [|split].
  - intros p H. rewrite H. cbn [snd]. apply lookup_insert_eq.
  - intros H. rewrite H. cbn [snd]. rewrite insert_insert_eq. apply lookup_insert_eq.
  - intros uid' Hne. destruct (store !! uid) eqn:E; cbn [snd].
    + by rewrite lookup_insert_ne by congruence.
    + rewrite insert_insert_eq. by rewrite lookup_insert_ne by congruence.
Qed.

Lemma X7_ml_store_after_analyze_witness :
  MLStore.getProfile (MLService.analyzeBehavior {[ "u" := ml_user_u ]} "u" sample_20ms 1%Z).2 "u"
  = Some (MLService.updateProfile ml_user_u sample_20ms 1%Z).
Proof.
  exact (proj1 (X7_ml_store_after_analyze {[ "u" := ml_user_u ]} "u" sample_20ms 1%Z)
           ml_user_u (lookup_singleton_eq _ _)).
Defined.

(** X8: [deleteProfile] returns true exactly when the user had a profile;
    afterwards [getProfile] finds none for that user and the others are
    unchanged. *)
Theorem X8_ml_deleteProfile (store : MLService.Store) (uid : string) :
  let r := MLStore.deleteProfile store uid in
  (r.1 = true <-> MLStore.getProfile store uid <> None) /\
  MLStore.getProfile r.2 uid = None /\
  (forall uid', uid' <> uid -> MLStore.getProfile r.2 uid' = MLStore.getProfile store uid').
Proof.
  cbv zeta. unfold MLStore.deleteProfile, MLStore.getProfile. cbn [fst snd].
  split; [|split].
  - rewrite bool_decide_eq_true. destruct (store !! uid); cbn.
    + split; [discriminate|intros; eexists; reflexivity].
    + split; [intros [? H]; discriminate | intros H; contradiction].
  - apply lookup_delete_eq.
  - intros uid' Hne. by rewrite lookup_delete_ne by congruence.
Qed.

Lemma X8_ml_deleteProfile_witness :
  MLStore.getProfile (MLStore.deleteProfile {[ "u" := ml_user_u ]} "u").2 "v" =
  MLStore.getProfile {[ "u" := ml_user_u ]} "v".
Proof.
  exact (proj2 (proj2 (X8_ml_deleteProfile {[ "u" := ml_user_u ]} "u")) "v"
           ltac:(discriminate)).
Defined.

(** X9: [resolveFlagLog] either finds no log with the id, returns false and
    leaves the log unchanged, or returns true and marks exactly the first log
    with that id as resolved, leaving every other entry and the order as they
    were. *)
Theorem X9_resolveFlagLog (fl : list FlagLog) (fid : string) :
  (Forall (fun l => f_id l <> fid) fl /\ UserServiceOps.resolveFlagLog fl fid = (false, fl)) \/
  (exists pre x post,
     fl = pre ++ x :: post /\ Forall (fun l => f_id l <> fid) pre /\ f_id x = fid /\
     UserServiceOps.resolveFlagLog fl fid =
       (true, pre ++ {| f_id := f_id x; f_sessionId := f_sessionId x;
                        timestamp := timestamp x; f_type := f_type x;
                        severity := severity x; description := description x;
                        action := action x; resolved := true |} :: post)).
Proof.
  induction fl as [|l rest IH]; cbn [UserServiceOps.resolveFlagLog].
  - left. split; [constructor | reflexivity].
  - destruct (String.eqb_spec (f_id l) fid) as [E|N].
    + right. exists [], l, rest. repeat split; [constructor | exact E].
    + destruct IH as [[HF HR] | (pre & x & post & Hfl & Hpre & Hx & HR)]; rewrite HR.
      * left. split; [constructor; assumption | reflexivity].
      * right. exists (l :: pre), x, post. rewrite Hfl.
        repeat split; [constructor; assumption | exact Hx].
Qed.

(** X10: resolving the same flag id twice gives the same result as once. *)
Theorem X10_resolveFlagLog_idempotent (fl : list FlagLog) (fid : string) :
  let r := UserServiceOps.resolveFlagLog fl fid in
  UserServiceOps.resolveFlagLog r.2 fid = r.
Proof.
  cbv zeta. induction fl as [|l rest IH]; cbn [UserServiceOps.resolveFlagLog]; [reflexivity|].
  destruct (String.eqb_spec (f_id l) fid) as [E|N].
  - cbn [snd UserServiceOps.resolveFlagLog f_id]. rewrite E, String.eqb_refl. reflexivity.
  - destruct (UserServiceOps.resolveFlagLog rest fid) as [b rest'] eqn:R.
    cbn [snd UserServiceOps.resolveFlagLog] in *.
    destruct (String.eqb_spec (f_id l) fid); [contradiction|]. rewrite IH. reflexivity.
Qed.

(** The sessions listed by [getActiveSessions] are the stored sessions whose
    active flag is set. *)
Lemma getActiveSessions_spec (ss : gmap string Session) (s : Session) :
  In s (UserServiceOps.getActiveSessions ss) <->
  (exists k, ss !! k = Some s) /\ isActive s = true.
Proof.
  unfold UserServiceOps.getActiveSessions. rewrite filter_In, in_map_iff.
  split.
  - intros [[[k s'] [Hs Hin]] Ha]. cbn in Hs; subst s'. split; [|exact Ha].
    exists k. apply elem_of_map_to_list. by apply list_elem_of_In.
  - intros [[k Hk] Ha]. split; [|exact Ha]. exists (k, s). split; [reflexivity|].
    apply list_elem_of_In. by apply elem_of_map_to_list.
Qed.

(** X11: [createSession] stores, under the id ["session-" ++ now], an active
    session of the user with score 0 started now; it is listed among the
    active sessions and every other id keeps its session (a session created
    earlier in the same millisecond is replaced). *)
Theorem X11_createSession (ss : gmap string Session) (uid : string) (now : Z) :
  let r := UserServiceOps.createSession ss uid now in
  s_id r.1 = "session-" +:+ pretty now /\
  UserServiceOps.getSession r.2 (s_id r.1) = Some r.1 /\
  s_userId r.1 = uid /\ isActive r.1 = true /\ anomalyScore r.1 = 0 /\
  startTime r.1 = now /\ lastActivity r.1 = now /\
  In r.1 (UserServiceOps.getActiveSessions r.2) /\
  (forall k, k <> s_id r.1 -> UserServiceOps.getSession r.2 k = ss !! k).
Proof.
  cbv zeta. unfold UserServiceOps.createSession, UserServiceOps.getSession.
  cbn [fst snd s_id s_userId isActive anomalyScore startTime lastActivity].
  repeat split; try reflexivity.
  - apply lookup_insert_eq.
  - apply getActiveSessions_spec. split; [|reflexivity].
    eexists. apply lookup_insert_eq.
  - intros k Hk. by rewrite lookup_insert_ne by congruence.
Qed.

(** X12: POST /logout with a non-empty session id removes exactly that
    session from the active sessions; without one (or with [""]) the state is
    unchanged. *)
Theorem X12_logout_active_sessions (st : UserService.State) (sid : string) :
  sid <> "" ->
  (forall s, In s (UserServiceOps.getActiveSessions
                     (UserService.sessions (MoreRoutes.logoutHandler st (Some sid)))) <->
             (exists k, k <> sid /\ UserService.sessions st !! k = Some s) /\
             isActive s = true) /\
  MoreRoutes.logoutHandler st None = st /\
  MoreRoutes.logoutHandler st (Some "") = st.
Proof.
  intros Hsid. unfold MoreRoutes.logoutHandler, BehaviorRoute.truthy.
  destruct (String.eqb_spec sid ""); [contradiction|].
  split; [|split; reflexivity].
  intros s. cbn [UserService.sessions]. rewrite getActiveSessions_spec.
  unfold UserService.endSession.
  destruct (UserService.sessions st !! sid) as [s0|] eqn:E.
  - split.
    + intros [[k Hk] Ha]. destruct (decide (k = sid)) as [->|Hne].
      * rewrite lookup_insert_eq in Hk. injection Hk as <-. discriminate.
      * rewrite lookup_insert_ne in Hk by congruence. eauto.
    + intros [[k [Hne Hk]] Ha]. split; [|exact Ha]. exists k.
      by rewrite lookup_insert_ne by congruence.
  - split.
    + intros [[k Hk] Ha]. split; [|exact Ha]. exists k. split; [|exact Hk].
      intros ->. congruence.
    + intros [[k [_ Hk]] Ha]. eauto.
Qed.

Definition session_a : Session := mkSession "session-1" "1" 0%Z 5%Z true 20.
Definition session_b : Session := mkSession "session-2" "1" 0%Z 6%Z true 40.

Definition flag_a : FlagLog :=
  mkFlagLog "flag-1" "session-1" 5%Z FTyping Medium (RealTimeAnomaly 55 [])
    "Request re-authentication" true.
Definition flag_b : FlagLog :=
  mkFlagLog "flag-2" "session-2" 6%Z FTyping Low (RealTimeAnomaly 35 [])
    "Request re-authentication" false.

(** John's two active sessions, one resolved and one open flag. *)
Definition busy_state : UserService.State :=
  UserService.mkState [("john_doe", user_default)]
    (<["session-1" := session_a]> (<["session-2" := session_b]> ∅)) [flag_a; flag_b].

(** Logging out of session-1 leaves session-2 active and session-1 not. *)
Lemma X12_logout_active_sessions_witness :
  In session_b (UserServiceOps.getActiveSessions
     (UserService.sessions (MoreRoutes.logoutHandler busy_state (Some "session-1")))) /\
  (In session_a (UserServiceOps.getActiveSessions
     (UserService.sessions (MoreRoutes.logoutHandler busy_state (Some "session-1"))))
   <-> False).
Proof.
  pose proof (proj1 (X12_logout_active_sessions busy_state "session-1"
                       ltac:(discriminate))) as H.
  split.
  - apply (proj2 (H session_b)). split; [|reflexivity]. exists "session-2". split; [discriminate|vm_compute; reflexivity].
  - split; [|contradiction]. intros Ha. apply (proj1 (H session_a)) in Ha as [[k [Hne Hk]] _].
    cbn [UserService.sessions busy_state] in Hk.
    apply lookup_insert_Some in Hk as [[Hk _]|[_ Hk]]; [congruence|].
    apply lookup_insert_Some in Hk as [[_ Hk]|[_ Hk]]; [discriminate Hk|].
    rewrite lookup_empty in Hk. discriminate Hk.
Defined.

Lemma filter_all_true {A} (f : A -> bool) (l : list A) :
  (forall x, In x l -> f x = true) -> List.filter f l = l.
Proof.
  induction l as [|x l IH]; intros H; cbn; [reflexivity|].
  rewrite (H x (or_introl eq_refl)), IH; [reflexivity|]. intros y Hy; apply H; right; exact Hy.
Qed.

Lemma length_filter_le {A} (f : A -> bool) (l : list A) :
  (length (List.filter f l) <= length l)%nat.
Proof.
  induction l as [|x l IH]; cbn; [lia|]. destruct (f x); cbn; lia.
Qed.

Lemma fold_score_bounds (l : list Session) (a0 : R) :
  (forall s, In s l -> 0 <= anomalyScore s <= 100) ->
  a0 <= fold_left (fun sum s => sum + anomalyScore s) l a0 <= a0 + 100 * INR (length l).
Proof.
  revert a0; induction l as [|s l IH]; intros a0 H; cbn [fold_left length].
  - simpl; lra.
  - pose proof (H s (or_introl eq_refl)).
    destruct (IH (a0 + anomalyScore s)) as [H1 H2]; [intros x Hx; apply H; right; exact Hx|].
    rewrite S_INR. lra.
Qed.

(** X13: GET /stats/:userId answers 404 exactly for an unknown user id; for
    a known user the active-session count always equals the session count
    (only active sessions are counted), the resolved-flag count never exceeds
    the flag count, and when every stored session score lies in [0, 100] so
    does the average. *)
Theorem X13_stats (st : UserService.State) (uid : string) :
  (MoreRoutes.statsHandler st uid = None <-> UserService.findUser st uid = None) /\
  (forall stats, MoreRoutes.statsHandler st uid = Some stats ->
     MoreRoutes.activeSessions stats = MoreRoutes.totalSessions stats /\
     (MoreRoutes.resolvedFlags stats <= MoreRoutes.totalFlags stats)%nat /\
     ((forall k s, UserService.sessions st !! k = Some s -> 0 <= anomalyScore s <= 100) ->
      0 <= MoreRoutes.averageAnomalyScore stats <= 100)).
Proof.
  unfold MoreRoutes.statsHandler. destruct (UserService.findUser st uid) as [u|].
  2: { split; [tauto|]. intros stats H; discriminate. }
  split; [split; discriminate|].
  intros stats H. injection H as <-. cbn [MoreRoutes.activeSessions
    MoreRoutes.totalSessions MoreRoutes.resolvedFlags MoreRoutes.totalFlags
    MoreRoutes.averageAnomalyScore].
  set (us := List.filter _ (UserServiceOps.getActiveSessions _)).
  assert (Hus : forall s, In s us ->
     (exists k, UserService.sessions st !! k = Some s) /\ isActive s = true).
  { intros s Hs. subst us. apply filter_In in Hs as [Hs _].
    by apply getActiveSessions_spec. }
  split; [|split].
  - rewrite filter_all_true; [reflexivity|]. intros s Hs; apply Hus, Hs.
  - apply length_filter_le.
  - intros Hb.
    assert (Hl : forall s, In s us -> 0 <= anomalyScore s <= 100).
    { intros s Hs. destruct (Hus s Hs) as [[k Hk] _]. exact (Hb k s Hk). }
    destruct (Nat.ltb_spec 0 (length us)) as [Hpos|]; [|lra].
    destruct (fold_score_bounds us 0 Hl) as [F1 F2].
    assert (HI : 0 < INR (length us)) by (apply lt_0_INR; lia).
    split.
    + unfold Rdiv. apply Rmult_le_pos; [lra|]. left; apply Rinv_0_lt_compat, HI.
    + apply Rmult_le_reg_r with (INR (length us)); [exact HI|].
      unfold Rdiv. rewrite Rmult_assoc, Rinv_l by lra. lra.
Qed.

(** On [busy_state], John's statistics count two sessions and two flags,
    one resolved, and the average score lies in [0, 100]. *)
Lemma X13_stats_witness :
  exists stats,
    MoreRoutes.statsHandler busy_state "1" = Some stats /\
    MoreRoutes.totalSessions stats = 2%nat /\ MoreRoutes.totalFlags stats = 2%nat /\
    MoreRoutes.resolvedFlags stats = 1%nat /\
    MoreRoutes.activeSessions stats = MoreRoutes.totalSessions stats /\
    (MoreRoutes.resolvedFlags stats <= MoreRoutes.totalFlags stats)%nat /\
    0 <= MoreRoutes.averageAnomalyScore stats <= 100.
Proof.
  destruct (MoreRoutes.statsHandler busy_state "1") as [stats|] eqn:E.
  2: { exfalso. apply (proj1 (proj1 (X13_stats busy_state "1"))) in E.
       change (Some user_default = None) in E. discriminate E. }
  assert (Ht : option_map MoreRoutes.totalSessions (Some stats) = Some 2%nat)
    by (rewrite <- E; vm_compute; reflexivity).
  assert (Hf : option_map MoreRoutes.totalFlags (Some stats) = Some 2%nat)
    by (rewrite <- E; vm_compute; reflexivity).
  assert (Hr : option_map MoreRoutes.resolvedFlags (Some stats) = Some 1%nat)
    by (rewrite <- E; vm_compute; reflexivity).
  cbn [option_map] in Ht, Hf, Hr. injection Ht as Ht. injection Hf as Hf.
  injection Hr as Hr.
  destruct (proj2 (X13_stats busy_state "1") stats E) as (H1 & H2 & H3).
  exists stats. split; [reflexivity|]. split; [exact Ht|]. split; [exact Hf|].
  split; [exact Hr|]. split; [exact H1|]. split; [exact H2|].
  apply H3. intros k s Hk. cbn [UserService.sessions busy_state] in Hk.
  apply lookup_insert_Some in Hk as [[_ <-]|[_ Hk]]; [cbn; lra|].
  apply lookup_insert_Some in Hk as [[_ <-]|[_ Hk]]; [cbn; lra|].
  rewrite lookup_empty in Hk. discriminate Hk.
Defined.

Lemma assocGet_assocSet (us : list (string * User)) (k k' : string) (u : User) :
  UserServiceOps.assocGet (UserServiceOps.assocSet us k u) k' =
  if String.eqb k k' then Some u else UserServiceOps.assocGet us k'.
Proof.
  induction us as [|[k0 u0] rest IH]; cbn.
  - destruct (String.eqb k k'); reflexivity.
  - destruct (String.eqb_spec k0 k) as [->|N]; cbn.
    + destruct (String.eqb k k'); reflexivity.
    + rewrite IH. destruct (String.eqb_spec k0 k') as [->|N']; [|reflexivity].
      destruct (String.eqb_spec k k'); [congruence|reflexivity].
Qed.

(** X14: [authenticateUser] always yields a user, stored under the given
    username, with [lastLogin] set to now.  A known username keeps its user's
    id, profile and creation time; an unknown one gets a fresh user whose id is
    the current time and whose profile is the default (250 / 50 / 10,
    threshold 30).  Other usernames are untouched. *)
Theorem X14_authenticateUser (st : UserService.State) (name : string) (now : Z) :
  let r := UserServiceOps.authenticateUser st name now in
  UserServiceOps.getUserByUsername r.2 name = Some r.1 /\
  lastLogin r.1 = now /\
  (forall u0, UserServiceOps.getUserByUsername st name = Some u0 ->
     u_id r.1 = u_id u0 /\ behaviorProfile r.1 = behaviorProfile u0 /\
     createdAt r.1 = createdAt u0) /\
  (UserServiceOps.getUserByUsername st name = None ->
     u_id r.1 = pretty now /\ username r.1 = name /\
     behaviorProfile r.1 = mkProfile (pretty now) 250 50 10 30 now) /\
  (forall name', name' <> name ->
     UserServiceOps.getUserByUsername r.2 name' = UserServiceOps.getUserByUsername st name').
Proof.
  cbv zeta. unfold UserServiceOps.authenticateUser, UserServiceOps.getUserByUsername.
  destruct (UserServiceOps.assocGet (UserService.users st) name) as [u|] eqn:E;
    cbn [fst snd UserService.users lastLogin u_id behaviorProfile createdAt username].
  - split; [rewrite assocGet_assocSet, String.eqb_refl; reflexivity|].
    split; [reflexivity|].
    split; [intros u0 H; injection H as <-; repeat split|].
    split; [intros H; discriminate|].
    intros n' Hn. rewrite assocGet_assocSet.
    destruct (String.eqb_spec name n'); [congruence|reflexivity].
  - split; [rewrite assocGet_assocSet, String.eqb_refl; reflexivity|].
    split; [reflexivity|].
    split; [intros u0 H; discriminate|].
    split; [intros _; repeat split|].
    intros n' Hn. rewrite assocGet_assocSet.
    destruct (String.eqb_spec name n'); [congruence|reflexivity].
Qed.

Lemma X14_authenticateUser_witness :
  UserServiceOps.getUserByUsername
    (UserServiceOps.authenticateUser route_state "alice" 5%Z).2 "john_doe" =
  Some user_default.
Proof.
  exact (proj2 (proj2 (proj2 (proj2 (X14_authenticateUser route_state "alice" 5%Z))))
           "john_doe" ltac:(discriminate)).
Defined.

Lemma assocGet_assocDelete (us : list (string * User)) (k k' : string) :
  UserServiceOps.assocGet (UserServiceOps.assocDelete us k) k' =
  if String.eqb k k' then None else UserServiceOps.assocGet us k'.
Proof.
  unfold UserServiceOps.assocDelete.
  induction us as [|[k0 u0] rest IH]; cbn.
  - destruct (String.eqb k k'); reflexivity.
  - destruct (String.eqb_spec k0 k) as [->|N]; cbn.
    + rewrite IH. destruct (String.eqb_spec k k'); reflexivity.
    + rewrite IH. destruct (String.eqb_spec k0 k') as [->|N'].
      * destruct (String.eqb_spec k k'); [congruence|reflexivity].
      * reflexivity.
Qed.

(** X15: [deleteUser] returns false and changes nothing when no user has the
    id; otherwise it returns true, the username of the first user with that id
    no longer resolves, and every other username resolves as before. *)
Theorem X15_deleteUser (st : UserService.State) (uid : string) :
  (UserService.findUser st uid = None -> UserServiceOps.deleteUser st uid = (false, st)) /\
  (forall u, UserService.findUser st uid = Some u ->
     (UserServiceOps.deleteUser st uid).1 = true /\
     UserServiceOps.getUserByUsername (UserServiceOps.deleteUser st uid).2 (username u) = None /\
     (forall name', name' <> username u ->
        UserServiceOps.getUserByUsername (UserServiceOps.deleteUser st uid).2 name' =
        UserServiceOps.getUserByUsername st name')).
Proof.
  unfold UserServiceOps.deleteUser, UserServiceOps.getUserByUsername.
  split; [intros H; rewrite H; reflexivity|].
  intros u H. rewrite H. cbn [fst snd UserService.users].
  split; [reflexivity|]. split.
  - rewrite assocGet_assocDelete, String.eqb_refl. reflexivity.
  - intros n' Hn. rewrite assocGet_assocDelete.
    destruct (String.eqb_spec (username u) n'); [congruence|reflexivity].
Qed.

Lemma X15_deleteUser_witness :
  (UserServiceOps.deleteUser route_state "1").1 = true.
Proof.
  exact (proj1 (proj2 (X15_deleteUser route_state "1") user_default eq_refl)).
Defined.

Lemma findUser_id (st : UserService.State) (uid : string) (u : User) :
  UserService.findUser st uid = Some u -> u_id u = uid.
Proof.
  unfold UserService.findUser. intros H. apply find_some in H as [_ H].
  by apply String.eqb_eq.
Qed.

Lemma find_mapFirstUser (f : User -> User) (us : list (string * User)) (uid : string)
    (u : User) :
  (forall x, u_id (f x) = u_id x) ->
  find (fun x => String.eqb (u_id x) uid) (map snd us) = Some u ->
  find (fun x => String.eqb (u_id x) uid) (map snd (UserServiceOps.mapFirstUser f us uid))
    = Some (f u).
Proof.
  intros Hf. induction us as [|[k x] rest IH]; cbn; [discriminate|].
  destruct (String.eqb (u_id x) uid) eqn:E.
  - intros H; injection H as <-. cbn. rewrite Hf, E. reflexivity.
  - intros H. cbn. rewrite E. apply IH, H.
Qed.

(** The profile update of [updateBehaviorProfile] is a first-match update. *)
Lemma setFirstProfile_mapFirst (us : list (string * User)) (uid : string)
    (m : BehaviorMetrics) (lr : R) (now : Z) :
  UserService.setFirstProfile us uid m lr now =
  UserServiceOps.mapFirstUser
    (fun u => {| u_id := u_id u; username := username u; email := email u;
                 behaviorProfile := BehaviorAnalysis.updateProfile
                    (behaviorProfile u) m lr now;
                 createdAt := createdAt u; lastLogin := lastLogin u |}) us uid.
Proof.
  induction us as [|[k u] rest IH]; cbn; [reflexivity|].
  destruct (String.eqb (u_id u) uid); [reflexivity|]. rewrite IH; reflexivity.
Qed.

(** X16: PUT /profile/:userId answers 404 and changes nothing for an unknown
    id; for a known one it returns the stored profile of the first user with
    that id, in which each supplied field has the new value, each omitted field
    its old value, [userId] is unchanged and [lastUpdated] is now. *)
Theorem X16_manual_profile_update (st : UserService.State) (uid : string)
    (bt bm bs th : option R) (now : Z) :
  (UserService.findUser st uid = None ->
     MoreRoutes.updateProfileHandler st uid bt bm bs th now = (None, st)) /\
  (forall u, UserService.findUser st uid = Some u ->
     let p0 := behaviorProfile u in
     exists p,
       (MoreRoutes.updateProfileHandler st uid bt bm bs th now).1 = Some p /\
       option_map behaviorProfile
         (UserService.findUser (MoreRoutes.updateProfileHandler st uid bt bm bs th now).2 uid)
         = Some p /\
       userId p = userId p0 /\
       baselineTypingInterval p = MoreRoutes.setIfDefined bt (baselineTypingInterval p0) /\
       baselineMouseActivity p = MoreRoutes.setIfDefined bm (baselineMouseActivity p0) /\
       baselineScrollPattern p = MoreRoutes.setIfDefined bs (baselineScrollPattern p0) /\
       anomalyThreshold p = MoreRoutes.setIfDefined th (anomalyThreshold p0) /\
       lastUpdated p = now).
Proof.
  unfold MoreRoutes.updateProfileHandler.
  split; [intros H; rewrite H; reflexivity|].
  intros u H. cbv zeta. rewrite H. cbn [fst snd].
  unfold UserService.findUser, UserService.getAllUsers in *. cbn [UserService.users].
  erewrite find_mapFirstUser; [|intros x; reflexivity|exact H].
  cbn [option_map behaviorProfile]. eexists. repeat split; reflexivity.
Qed.

(** Setting John's typing baseline to 300 and threshold to 40 returns a
    profile with those values, the other baselines kept, stamped at time 9. *)
Lemma X16_manual_profile_update_witness :
  exists p,
    (MoreRoutes.updateProfileHandler route_state "1" (Some 300) None None (Some 40) 9%Z).1
      = Some p /\
    userId p = "1" /\ baselineTypingInterval p = 300 /\ baselineMouseActivity p = 50 /\
    baselineScrollPattern p = 10 /\ anomalyThreshold p = 40 /\ lastUpdated p = 9%Z.
Proof.
  destruct (proj2 (X16_manual_profile_update route_state "1" (Some 300) None None
                     (Some 40) 9%Z) user_default eq_refl)
    as [p (H1 & _ & Hu & Ht & Hm & Hs & Hth & Hl)].
  exists p. split; [exact H1|]. split; [exact Hu|]. split; [exact Ht|].
  split; [exact Hm|]. split; [exact Hs|]. split; [exact Hth|exact Hl].
Defined.

(** X17: POST /analyze answers 400 without behaviour metrics or with an empty
    user id, and 404 for an unknown user id; in all three cases no session,
    flag or profile changes. *)
Theorem X17_analyze_errors (st : UserService.State) (uid : string)
    (bm : BehaviorMetrics) (sid : option string) (now : Z) :
  BehaviorRoute.analyzeHandler st uid None sid now = (BehaviorRoute.BadRequest, st) /\
  BehaviorRoute.analyzeHandler st "" (Some bm) sid now = (BehaviorRoute.BadRequest, st) /\
  (uid <> "" -> UserService.findUser st uid = None ->
   BehaviorRoute.analyzeHandler st uid (Some bm) sid now = (BehaviorRoute.UserNotFound, st)).
Proof.
  unfold BehaviorRoute.analyzeHandler.
  split; [reflexivity|]. split; [reflexivity|].
  intros Hu Hf. destruct (String.eqb_spec uid ""); [contradiction|]. rewrite Hf.
  reflexivity.
Qed.

(** The three error answers on [route_state]: no metrics, an empty id, and
    the unknown id "42". *)
Lemma X17_analyze_errors_witness :
  UserService.findUser route_state "42" = None /\
  BehaviorRoute.analyzeHandler route_state "42" None None 3%Z =
    (BehaviorRoute.BadRequest, route_state) /\
  BehaviorRoute.analyzeHandler route_state "" (Some sample_20ms) None 3%Z =
    (BehaviorRoute.BadRequest, route_state) /\
  BehaviorRoute.analyzeHandler route_state "42" (Some sample_20ms) None 3%Z =
    (BehaviorRoute.UserNotFound, route_state).
Proof.
  destruct (X17_analyze_errors route_state "42" sample_20ms None 3%Z) as (H1 & H2 & H3).
  split; [reflexivity|]. split; [exact H1|]. split; [exact H2|].
  exact (H3 ltac:(discriminate) eq_refl).
Defined.

(** X18: after a successful POST /analyze the user's stored profile is the
    pre-request profile adapted with learning rate 0.1 ([updateProfile]), and
    that adapted profile is the one returned in the response. *)
Theorem X18_analyze_adapts_profile (st : UserService.State) (uid : string)
    (bm : BehaviorMetrics) (sid : option string) (now : Z) (u : User) :
  uid <> "" -> UserService.findUser st uid = Some u ->
  let r := BehaviorRoute.analyzeHandler st uid (Some bm) sid now in
  let p' := BehaviorAnalysis.updateProfile (behaviorProfile u) bm 0.1 now in
  r.1 = BehaviorRoute.Analyzed (BehaviorAnalysis.analyzeBehavior bm (behaviorProfile u)) p' /\
  option_map behaviorProfile (UserService.findUser r.2 uid) = Some p'.
Proof.
  intros Hu Hf. cbv zeta. pose proof (findUser_id _ _ _ Hf) as Hid.
  unfold BehaviorRoute.analyzeHandler.
  destruct (String.eqb_spec uid ""); [contradiction|]. rewrite Hf.
  unfold UserService.findUser, UserService.getAllUsers in *.
  cbn [fst snd UserService.updateBehaviorProfile UserService.users].
  rewrite setFirstProfile_mapFirst, Hid.
  erewrite find_mapFirstUser; [|intros x; reflexivity|exact Hf].
  split; reflexivity.
Qed.

(** John (id "1") is known; after the 20 ms sample his stored and returned
    profile is the default profile adapted by the sample. *)
Lemma X18_analyze_adapts_profile_witness :
  UserService.findUser route_state "1" = Some user_default /\
  (BehaviorRoute.analyzeHandler route_state "1" (Some sample_20ms) None 3%Z).1 =
    BehaviorRoute.Analyzed (BehaviorAnalysis.analyzeBehavior sample_20ms default_profile)
      (BehaviorAnalysis.updateProfile default_profile sample_20ms 0.1 3%Z) /\
  option_map behaviorProfile
    (UserService.findUser
       (BehaviorRoute.analyzeHandler route_state "1" (Some sample_20ms) None 3%Z).2 "1")
  = Some (BehaviorAnalysis.updateProfile default_profile sample_20ms 0.1 3%Z).
Proof.
  split; [reflexivity|].
  exact (X18_analyze_adapts_profile route_state "1" sample_20ms None 3%Z
           user_default ltac:(discriminate) eq_refl).
Defined.
